(** * webview2runtime: a shallow embedding of [webview2runtime.go]

    The package talks to Windows through five outside services: the
    registry, [WebView2Loader.dll], [user32.dll], the file system / HTTP
    client, and process execution.  Their answers are gathered in one
    record, [Host]; every function of the package is a Rocq function of
    the host.  Effects (the order of the outside calls, the number of
    times the temp file has been closed) are threaded through a small
    state monad, and Go's [defer] and named results are written out in
    [InstallUsingBootstrapper].

    Scope: runs in which the lazily loaded DLL procedures resolve
    ([LazyProc.Call] does not return otherwise) and the receiver of
    [IsOlderThan] is not nil. *)

From Stdlib Require Import ZArith String Ascii List Bool Lia.
From stdpp Require Import base strings gmap.
Import ListNotations.

Local Open Scope string_scope.
Local Open Scope list_scope.
Local Open Scope Z_scope.

(** ** Go values *)

(** The dynamic value behind [Sys()] of an [exec.ExitError]: on Windows
    a [syscall.WaitStatus], whose [ExitStatus()] is the exit code. *)
Inductive sysval : Type :=
| WaitStatus (ExitStatus : Z)
| SysOther.

(** The error values the package can meet.  The Go interface value
    [error] is [option error]; [None] is [nil]. *)
Inductive error : Type :=
| EINVAL                          (* syscall.EINVAL *)
| Errno (n : Z)                   (* syscall.Errno from GetLastError *)
| ErrNotExist                     (* registry.ErrNotExist *)
| ErrUnexpectedType               (* registry.ErrUnexpectedType *)
| ErrClosed                       (* os.ErrClosed: file already closed *)
| ExitError (sys : sysval)        (* exec.ExitError *)
| ErrOther (msg : string).        (* any other error value *)

Definition is_nil (e : option error) : bool :=
  match e with None => true | Some _ => false end.

(** [int(x)] for a [bits]-wide [int]: two's complement wrap-around. *)
Definition to_int (bits : Z) (x : Z) : Z :=
  (x + 2 ^ (bits - 1)) mod 2 ^ bits - 2 ^ (bits - 1).

(** ** syscall.UTF16PtrFromString *)

(** [bytealg.IndexByteString]: index of the first byte [c], or -1. *)
Fixpoint IndexByteString (s : string) (c : ascii) : Z :=
  match s with
  | EmptyString => -1
  | String a rest =>
      if Ascii.eqb a c then 0
      else let i := IndexByteString rest c in
           if i =? -1 then -1 else i + 1
  end.

(** A [*uint16] to the NUL-terminated UTF-16 buffer of a Go string.  The
    buffer is a function of the string, so the model keeps the string. *)
Record UTF16Ptr : Type := Utf16Of { pointee : string }.

Definition UTF16PtrFromString (s : string) : UTF16Ptr + error :=
  if negb (IndexByteString s Ascii.zero =? -1) then inr EINVAL
  else inl (Utf16Of s).

(** ** The registry *)

(** A value stored under an open key: a string ([REG_SZ] = 1,
    [REG_EXPAND_SZ] = 2), a value of another type, or a value whose read
    fails with a system error. *)
Inductive regvalue : Type :=
| RegSZ (s : string)
| RegExpandSZ (s : string)
| RegOther (typ : Z)
| RegFault (e : Z).

(** An open [registry.Key] is the table of its values. *)
Abbreviation Key := (gmap string regvalue).

(** [syscall.UTF16ToString], on the text a UTF-16 buffer encodes: the
    terminating NUL and everything after it are removed. *)
Fixpoint UTF16ToString (s : string) : string :=
  match s with
  | EmptyString => EmptyString
  | String a rest =>
      if Ascii.eqb a Ascii.zero then EmptyString
      else String a (UTF16ToString rest)
  end.

(** [registry.Key.GetStringValue]: the string, the value type and the
    error.  The stored data is decoded with [UTF16ToString]. *)
Definition GetStringValue (k : Key) (name : string) : string * Z * option error :=
  match k !! name with
  | None => ("", 0, Some ErrNotExist)
  | Some (RegSZ s) => (UTF16ToString s, 1, None)
  | Some (RegExpandSZ s) => (UTF16ToString s, 2, None)
  | Some (RegOther typ) => ("", typ, Some ErrUnexpectedType)
  | Some (RegFault e) => ("", 0, Some (Errno e))
  end.

(** ** The host *)

Record Host : Type := {
  GOARCH : string;                                   (* runtime.GOARCH *)
  intSize : Z;                                       (* width of int and uintptr *)
  OpenKey : string -> Key + error;                   (* registry.OpenKey(LOCAL_MACHINE, path, QUERY_VALUE) *)
  (* CompareBrowserVersions(v1, v2, &result): the content of [result]
     after the call, given its content before, and the last error *)
  CompareBrowserVersions : UTF16Ptr -> UTF16Ptr -> Z -> Z * Z;
  (* MessageBoxW(hwnd, text, caption, type): the returned uintptr *)
  MessageBoxW : Z -> UTF16Ptr -> UTF16Ptr -> Z -> Z;
  TempDir : string;                                  (* os.TempDir() *)
  os_Create : string -> option error;                (* os.Create(path) *)
  http_Get : string -> option error;                 (* http.Get(url) *)
  io_Copy : option error;                            (* io.Copy(out, resp.Body) *)
  file_Close : nat -> option error;                  (* the n-th out.Close(), from 0 *)
  body_Close : option error;                         (* resp.Body.Close() *)
  cmd_Start : string -> option error;                (* exec.Command(path).Start() *)
  cmd_Wait : option error                            (* cmd.Wait() *)
}.

(** ** Effects *)

Inductive event : Type :=
| EvOpenKey (path : string)
| EvGetStringValue (name : string)
| EvCreate (path : string)
| EvHttpGet (url : string)
| EvCopy
| EvCloseFile (n : nat)
| EvCloseBody
| EvStart (path : string)
| EvWait.

(** A call postponed by [defer]; each one is a closure that assigns the
    named result [err]. *)
Inductive deferred : Type :=
| DeferCloseOut      (* err = out.Close() *)
| DeferCloseBody.    (* err = Body.Close() *)

(** What a run has done so far: the outside calls in order, how many
    times the temp file was closed, and the pending deferred calls (the
    most recent first). *)
Record world : Type := {
  trace : list event;
  closes : nat;
  defers : list deferred
}.

Definition M (A : Type) : Type := world -> A * world.

Definition ret {A} (a : A) : M A := fun w => (a, w).
Definition bind {A B} (m : M A) (f : A -> M B) : M B :=
  fun w => let '(a, w') := m w in f a w'.
Definition emit (e : event) : M unit :=
  fun w => (tt, {| trace := trace w ++ [e]; closes := closes w;
                   defers := defers w |}).

Notation "'let*' x ':=' m 'in' k" := (bind m (fun x => k))
  (at level 10, x name, m at level 100, k at level 200).
Notation "'exec' m 'in' k" := (bind m (fun _ => k))
  (at level 10, m at level 100, k at level 200).

Definition init : world := {| trace := []; closes := 0; defers := [] |}.

(** Run a computation from a fresh world: its value and its trace. *)
Definition run {A} (m : M A) : A * list event :=
  let '(a, w) := m init in (a, trace w).

(** ** Info *)

Record Info : Type := {
  Location : string;
  Name : string;
  Version : string;
  SilentUninstall : string
}.

(** ** IsOlderThan *)

Definition IsOlderThan (h : Host) (i : Info) (requiredVersion : string)
  : bool * option error :=
  match UTF16PtrFromString (Version i) with
  | inr err => (false, Some err)
  | inl v1 =>
      match UTF16PtrFromString requiredVersion with
      | inr err => (false, Some err)
      | inl v2 =>
          let '(result, lastErr) := CompareBrowserVersions h v1 v2 9 in
          if (result <? -1) || (result >? 1) then (false, Some (Errno lastErr))
          else (result =? -1, None)
      end
  end.

(** ** GetInstalledVersion *)

Definition regkey (arch : string) : string :=
  if String.eqb arch "386"
  then "SOFTWARE\Microsoft\EdgeUpdate\Clients\{F3017226-FE2A-4295-8BDF-00C3A9A7E4C5}"
  else "SOFTWARE\WOW6432Node\Microsoft\EdgeUpdate\Clients\{F3017226-FE2A-4295-8BDF-00C3A9A7E4C5}".

Definition getKeyValue (k : Key) (name : string) : M string :=
  exec emit (EvGetStringValue name) in
  let '(result, _, _) := GetStringValue k name in
  ret result.

Definition GetInstalledVersion (h : Host) : M (option Info) :=
  exec emit (EvOpenKey (regkey (GOARCH h))) in
  match OpenKey h (regkey (GOARCH h)) with
  | inr _ => ret None
  | inl k =>
      let* location := getKeyValue k "location" in
      let* name := getKeyValue k "name" in
      let* pv := getKeyValue k "pv" in
      let* silent := getKeyValue k "SilentUninstall" in
      ret (Some {| Location := location; Name := name;
                   Version := pv; SilentUninstall := silent |})
  end.

(** ** MessageBox, Confirm, Error *)

Definition MessageBox (h : Host) (caption title : string) (flags : Z)
  : Z * option error :=
  match UTF16PtrFromString caption with
  | inr err => (-1, Some err)
  | inl captionUTF16 =>
      match UTF16PtrFromString title with
      | inr err => (-1, Some err)
      | inl titleUTF16 =>
          let ret := MessageBoxW h 0 captionUTF16 titleUTF16 flags in
          (to_int (intSize h) ret, None)
      end
  end.

Definition MB_OKCANCEL : Z := 1.
Definition MB_ICONERROR : Z := 16.

Definition Confirm (h : Host) (caption title : string) : bool * option error :=
  let '(result, err) := MessageBox h caption title MB_OKCANCEL in
  if negb (is_nil err) then (false, err)
  else (result =? 1, None).

Definition Error (h : Host) (caption title : string) : option error :=
  let '(_, err) := MessageBox h caption title MB_ICONERROR in
  err.

(** ** InstallUsingBootstrapper *)

Definition bootstrapperURL : string :=
  "https://go.microsoft.com/fwlink/p/?LinkId=2124703".

(** [filepath.Join] of a directory and a file name on Windows, for a
    directory that is already clean and does not end in a separator (a
    drive root does); [filepath.Join] would clean the result otherwise. *)
Definition filepath_Join (dir name : string) : string :=
  dir ++ "\" ++ name.

(** An outside call: logged, answered by the host. *)
Definition call {A} (e : event) (answer : A) : M A :=
  exec emit e in ret answer.

(** [out.Close()]: the host answers by the number of earlier closes. *)
Definition out_Close (h : Host) : M (option error) :=
  fun w => (file_Close h (closes w),
            {| trace := trace w ++ [EvCloseFile (closes w)];
               closes := S (closes w); defers := defers w |}).

Definition Body_Close (h : Host) : M (option error) :=
  call EvCloseBody (body_Close h).

(** The [defer] statement. *)
Definition defer (d : deferred) : M unit :=
  fun w => (tt, {| trace := trace w; closes := closes w;
                   defers := d :: defers w |}).

(** The local [installer]: where the download is written. *)
Definition installer (h : Host) : string :=
  filepath_Join (TempDir h) "MicrosoftEdgeWebview2Setup.exe".

(** The statements of the function; the value is what the [return]
    statement reached assigns to the named results [(result, err)]. *)
Definition install_body (h : Host) : M (bool * option error) :=
  let installer := installer h in
  let* err := call (EvCreate installer) (os_Create h installer) in
  if negb (is_nil err) then ret (false, err) else
  exec defer DeferCloseOut in
  let* err := call (EvHttpGet bootstrapperURL) (http_Get h bootstrapperURL) in
  if negb (is_nil err) then ret (false, err) else
  exec defer DeferCloseBody in
  let* err := call EvCopy (io_Copy h) in
  if negb (is_nil err) then ret (false, err) else
  let* err := out_Close h in
  if negb (is_nil err) then ret (false, err) else
  let* err1 := call (EvStart installer) (cmd_Start h installer) in
  if negb (is_nil err1) then ret (false, err1) else
  let* err2 := call EvWait (cmd_Wait h) in
  match err2 with
  | Some (ExitError (WaitStatus status)) => ret (status =? 0, None)
  | _ => ret (true, None)
  end.

(** One deferred closure: it overwrites [err]. *)
Definition run_deferred (h : Host) (d : deferred) (err : option error)
  : M (option error) :=
  match d with
  | DeferCloseOut => out_Close h
  | DeferCloseBody => Body_Close h
  end.

(** Function exit: the pending closures run, the most recent first. *)
Fixpoint run_defers (h : Host) (ds : list deferred) (err : option error)
  : M (option error) :=
  match ds with
  | [] => ret err
  | d :: ds' =>
      let* err' := run_deferred h d err in
      run_defers h ds' err'
  end.

Definition InstallUsingBootstrapper (h : Host) : M (bool * option error) :=
  let* r := install_body h in
  fun w =>
    let '(err, w') := run_defers h (defers w) (snd r)
                        {| trace := trace w; closes := closes w; defers := [] |} in
    ((fst r, err), w').

(** ** Sample hosts *)

(** [os.File.Close] as the [os] package documents it: the first close
    answers as the system does, every later one fails with [ErrClosed]. *)
Definition go_close (first : option error) (n : nat) : option error :=
  match n with
  | O => first
  | S _ => Some ErrClosed
  end.

(** A host on which every step of the download succeeds; its comparator
    reports [answer] with last error 0, its dialog returns [button]. *)
Definition sample_host (arch : string) (key : Key + error) (answer button : Z)
    (start wait : option error) : Host :=
  {| GOARCH := arch; intSize := 64;
     OpenKey := fun _ => key;
     CompareBrowserVersions := fun _ _ _ => (answer, 0);
     MessageBoxW := fun _ _ _ _ => button;
     TempDir := "C:\Temp";
     os_Create := fun _ => None;
     http_Get := fun _ => None;
     io_Copy := None;
     file_Close := go_close None;
     body_Close := None;
     cmd_Start := fun _ => start;
     cmd_Wait := wait |}.

Definition sample_key : Key :=
  <["location" := RegSZ "C:\Program Files (x86)\Microsoft\EdgeWebView"]>
    (<["pv" := RegSZ "89.0.0.1"]> (<["name" := RegOther 4]> ∅)).

Definition sample_info : Info :=
  {| Location := ""; Name := ""; Version := "89.0.0.1"; SilentUninstall := "" |}.

(** Sample hosts: one with an installed runtime that the comparator
    finds older and a user who presses OK, one without a runtime and a
    user who presses Cancel, one whose wait on the installer fails. *)
Definition older_host : Host :=
  sample_host "amd64" (inl sample_key) (-1) 1 None None.

Definition bare_host : Host :=
  sample_host "386" (inr ErrNotExist) 0 2 None None.

Definition wait_fault_host : Host :=
  sample_host "amd64" (inr ErrNotExist) 0 1 None (Some (ExitError SysOther)).

(** The same host with another answer of [cmd.Start] or [cmd.Wait]. *)
Definition set_Start (h : Host) (e : option error) : Host :=
  {| GOARCH := GOARCH h; intSize := intSize h; OpenKey := OpenKey h;
     CompareBrowserVersions := CompareBrowserVersions h;
     MessageBoxW := MessageBoxW h; TempDir := TempDir h;
     os_Create := os_Create h; http_Get := http_Get h; io_Copy := io_Copy h;
     file_Close := file_Close h; body_Close := body_Close h;
     cmd_Start := fun _ => e; cmd_Wait := cmd_Wait h |}.

Definition set_Wait (h : Host) (e : option error) : Host :=
  {| GOARCH := GOARCH h; intSize := intSize h; OpenKey := OpenKey h;
     CompareBrowserVersions := CompareBrowserVersions h;
     MessageBoxW := MessageBoxW h; TempDir := TempDir h;
     os_Create := os_Create h; http_Get := http_Get h; io_Copy := io_Copy h;
     file_Close := file_Close h; body_Close := body_Close h;
     cmd_Start := cmd_Start h; cmd_Wait := e |}.

(** ** Vocabulary of the properties *)

(** A Go string holds a NUL byte. *)
Definition contains_nul (s : string) : Prop :=
  In Ascii.zero (list_ascii_of_string s).

(** The content of [result] after the comparator ran on the two encoded
    versions. *)
Definition reported (h : Host) (i : Info) (requiredVersion : string) : Z :=
  fst (CompareBrowserVersions h (Utf16Of (Version i)) (Utf16Of requiredVersion) 9).

(** What [getKeyValue] yields for a value name of an open key. *)
Definition value_of (k : Key) (name : string) : string :=
  fst (fst (GetStringValue k name)).

(** The run gets as far as launching the installer: the temp file was
    created, the download was written, the explicit close succeeded. *)
Definition downloads (h : Host) : Prop :=
  os_Create h (installer h) = None /\ http_Get h bootstrapperURL = None /\
  io_Copy h = None /\ file_Close h 0%nat = None.

(** [cmd.Wait] tells that the child exited with status [code]: nil for
    status 0, otherwise an [ExitError] that carries the wait status. *)
Definition exited (wait : option error) (code : Z) : Prop :=
  (wait = None /\ code = 0) \/ wait = Some (ExitError (WaitStatus code)).

(** ** The workflow of the README: BootstrapRuntime *)

(** The package calls the workflow makes, in order.  [ActError] and
    [ActConfirm] record the call with its texts, whether or not the
    dialog could be shown. *)
Inductive action : Type :=
| ActQuery                                   (* GetInstalledVersion() *)
| ActCompare (required : string)             (* IsOlderThan(required) *)
| ActConfirm (message title : string)        (* Confirm(message, title) *)
| ActError (message title : string)          (* Error(message, title) *)
| ActInstall.                                (* InstallUsingBootstrapper() *)

(** The block under the second [if shouldInstall]: ask, then install.
    [errorText] is [err.Error()]. *)
Definition confirm_and_install (errorText : error -> string) (h : Host)
    (message : string) (done : list action) : option error * list action :=
  let '(confirmed, err) := Confirm h message "Missing Requirements" in
  let done := done ++ [ActConfirm message "Missing Requirements"] in
  if negb (is_nil err) then (err, done) else
  if confirmed then
    let '(installedCorrectly, err) := fst (run (InstallUsingBootstrapper h)) in
    let done := done ++ [ActInstall] in
    match err with
    | Some e => (err, done ++ [ActError (errorText e) "Error"])
    | None =>
        if negb installedCorrectly then
          let message := "The runtime failed to install correctly. Please try again." in
          (Error h message "Error", done ++ [ActError message "Error"])
        else (None, done)
    end
  else (None, done).

Definition BootstrapRuntime (errorText : error -> string) (h : Host)
  : option error * list action :=
  let message := "The WebView2 runtime is required. Press Ok to install." in
  let installedVersion := fst (run (GetInstalledVersion h)) in
  match installedVersion with
  | Some info =>
      let '(shouldInstall, err) := IsOlderThan h info "90.0.818.66" in
      let done := [ActQuery; ActCompare "90.0.818.66"] in
      match err with
      | Some e => (err, done ++ [ActError (errorText e) "Error"])
      | None =>
          if shouldInstall then
            let message := "The WebView2 runtime needs updating. Press Ok to install." in
            confirm_and_install errorText h message done
          else (None, done)
      end
  | None => confirm_and_install errorText h message [ActQuery]
  end.

(** ** More vocabulary *)

(** The same host with another answer of [resp.Body.Close()]. *)
Definition set_body_Close (h : Host) (e : option error) : Host :=
  {| GOARCH := GOARCH h; intSize := intSize h; OpenKey := OpenKey h;
     CompareBrowserVersions := CompareBrowserVersions h;
     MessageBoxW := MessageBoxW h; TempDir := TempDir h;
     os_Create := os_Create h; http_Get := http_Get h; io_Copy := io_Copy h;
     file_Close := file_Close h; body_Close := e;
     cmd_Start := cmd_Start h; cmd_Wait := cmd_Wait h |}.

(** The key holds the string [s] under [name]. *)
Definition stored (k : Key) (name s : string) : Prop :=
  k !! name = Some (RegSZ s) \/ k !! name = Some (RegExpandSZ s).

(** The closes of the temp file in a trace. *)
Definition is_file_close (e : event) : bool :=
  match e with EvCloseFile _ => true | _ => false end.

Definition file_closes (tr : list event) : nat :=
  length (filter is_file_close tr).

(** A rendering of errors for the sample runs of the workflow. *)
Definition sample_text (e : error) : string :=
  match e with
  | EINVAL => "invalid argument"
  | Errno _ => "The operation completed successfully."
  | ErrNotExist => "The system cannot find the file specified."
  | ErrUnexpectedType => "unexpected key value type"
  | ErrClosed => "file already closed"
  | ExitError _ => "exit status"
  | ErrOther msg => msg
  end.

(** A host whose user declines, and one whose runtime is current. *)
Definition cancel_host : Host :=
  sample_host "amd64" (inl sample_key) (-1) 2 None None.

Definition current_host : Host :=
  sample_host "amd64" (inl sample_key) 0 1 None None.

(** More sample data: a text with a NUL byte, a key with all four
    strings, a key with one more value, and hosts with a dialog that
    returns the all-ones word, a comparator that reports 9, a disk that
    refuses the temp file, and no network. *)
Definition nul_text : string := String Ascii.zero "x".

Definition nul_info : Info :=
  {| Location := ""; Name := ""; Version := nul_text; SilentUninstall := "" |}.

Definition full_key : Key :=
  <["SilentUninstall" := RegExpandSZ "%ProgramFiles%\setup.exe --uninstall"]>
    (<["name" := RegSZ "Microsoft Edge WebView2 Runtime"]> sample_key).

Definition wider_key : Key := <["lang" := RegSZ "en"]> sample_key.

Definition full_host : Host :=
  sample_host "amd64" (inl full_key) 0 1 None None.

Definition wider_host : Host :=
  sample_host "amd64" (inl wider_key) 1 2 None None.

Definition allones_host : Host :=
  sample_host "amd64" (inl sample_key) 0 18446744073709551615 None None.

Definition faulty_host : Host :=
  sample_host "amd64" (inl sample_key) 9 1 None None.

Definition no_disk_host : Host :=
  {| GOARCH := "amd64"; intSize := 64;
     OpenKey := fun _ => inr ErrNotExist;
     CompareBrowserVersions := fun _ _ _ => (0, 0);
     MessageBoxW := fun _ _ _ _ => 1;
     TempDir := "C:\Temp";
     os_Create := fun _ => Some (ErrOther "access is denied");
     http_Get := fun _ => None;
     io_Copy := None;
     file_Close := go_close None;
     body_Close := None;
     cmd_Start := fun _ => None;
     cmd_Wait := None |}.

Definition offline_host : Host :=
  {| GOARCH := "amd64"; intSize := 64;
     OpenKey := fun _ => inr ErrNotExist;
     CompareBrowserVersions := fun _ _ _ => (0, 0);
     MessageBoxW := fun _ _ _ _ => 1;
     TempDir := "C:\Temp";
     os_Create := fun _ => None;
     http_Get := fun _ => Some (ErrOther "no such host");
     io_Copy := None;
     file_Close := go_close None;
     body_Close := None;
     cmd_Start := fun _ => None;
     cmd_Wait := None |}.

(** ** The comparator's store and the closed file *)

(** [CompareBrowserVersions] is a C function of [WebView2Loader.dll],
    [HRESULT CompareBrowserVersions(PCWSTR, PCWSTR, int* result)]: it
    stores its answer as a 32-bit [int] at the address it is given.  The
    code gives it the address of a Go [int], [bits] wide, on a
    little-endian machine: the low 32 bits of the variable are replaced
    and what lies above them is kept. *)
Definition store_int32 (bits old answer : Z) : Z :=
  to_int bits
    (Z.lor (Z.shiftl (Z.shiftr (old mod 2 ^ bits) 32) 32) (answer mod 2 ^ 32)).

(** The comparator of the host answers [answer] for two versions, and
    leaves [lastErr] as the last error. *)
Definition comparator_answers (h : Host) (v1 v2 : string) (answer lastErr : Z)
  : Prop :=
  forall old,
    CompareBrowserVersions h (Utf16Of v1) (Utf16Of v2) old =
      (store_int32 (intSize h) old answer, lastErr).

(** A host with an [int] of [bits] bits whose comparator is the C
    function, answering [answer]; every step of a download succeeds. *)
Definition dll_host (arch : string) (bits answer : Z) : Host :=
  {| GOARCH := arch; intSize := bits;
     OpenKey := fun _ => inl sample_key;
     CompareBrowserVersions :=
       fun _ _ old => (store_int32 bits old answer, 0);
     MessageBoxW := fun _ _ _ _ => 1;
     TempDir := "C:\Temp";
     os_Create := fun _ => None;
     http_Get := fun _ => None;
     io_Copy := None;
     file_Close := go_close None;
     body_Close := None;
     cmd_Start := fun _ => None;
     cmd_Wait := None |}.



(** * Properties *)

(** ** Encoding *)

Lemma contains_nul_dec (s : string) : {contains_nul s} + {~ contains_nul s}.
Proof. apply in_dec, ascii_dec. Defined.

Lemma IndexByteString_lower (s : string) (c : ascii) :
  -1 <= IndexByteString s c.
Proof.
  induction s as [|a rest IH]; simpl; [lia|].
  destruct (Ascii.eqb a c); [lia|].
  destruct (IndexByteString rest c =? -1); lia.
Qed.

Lemma IndexByteString_absent (s : string) (c : ascii) :
  IndexByteString s c = -1 <-> ~ In c (list_ascii_of_string s).
Proof.
  induction s as [|a rest IH]; simpl.
  - tauto.
  - destruct (Ascii.eqb a c) eqn:Eac.
    + apply Ascii.eqb_eq in Eac. split; [lia | intros H; exfalso; auto].
    + apply Ascii.eqb_neq in Eac.
      pose proof (IndexByteString_lower rest c) as Hlow.
      destruct (IndexByteString rest c =? -1) eqn:Ei.
      * apply Z.eqb_eq in Ei. split; [|reflexivity].
        intros _ [Hh | Ht]; [congruence | apply IH in Ei; auto].
      * apply Z.eqb_neq in Ei. split; [lia|].
        intros Hn. exfalso. apply Ei, IH. auto.
Qed.

Lemma UTF16PtrFromString_ok (s : string) :
  ~ contains_nul s -> UTF16PtrFromString s = inl (Utf16Of s).
Proof.
  intros H. unfold UTF16PtrFromString.
  apply IndexByteString_absent in H. rewrite H. reflexivity.
Qed.

Lemma UTF16PtrFromString_err (s : string) :
  contains_nul s -> UTF16PtrFromString s = inr EINVAL.
Proof.
  intros H. unfold UTF16PtrFromString.
  destruct (IndexByteString s Ascii.zero =? -1) eqn:E; [|reflexivity].
  apply Z.eqb_eq, IndexByteString_absent in E. contradiction.
Qed.

(** Encoding fails exactly on the strings that hold a NUL byte. *)
Lemma UTF16PtrFromString_fails_iff (s : string) :
  (exists e, UTF16PtrFromString s = inr e) <-> contains_nul s.
Proof.
  split.
  - intros [e He]. destruct (contains_nul_dec s) as [|Hn]; [assumption|].
    rewrite (UTF16PtrFromString_ok s Hn) in He. discriminate.
  - intros H. exists EINVAL. now apply UTF16PtrFromString_err.
Qed.

(** ** Version comparison *)

Section Comparator.
Variable h : Host.
Variables (i : Info) (requiredVersion : string).

Local Abbreviation reported := (reported h i requiredVersion).

Lemma IsOlderThan_encoded :
  ~ contains_nul (Version i) -> ~ contains_nul requiredVersion ->
  IsOlderThan h i requiredVersion =
    if (reported <? -1) || (reported >? 1)
    then (false, Some (Errno (snd (CompareBrowserVersions h
            (Utf16Of (Version i)) (Utf16Of requiredVersion) 9))))
    else (reported =? -1, None).
Proof.
  intros H1 H2. unfold IsOlderThan, reported.
  rewrite (UTF16PtrFromString_ok _ H1), (UTF16PtrFromString_ok _ H2).
  destruct (CompareBrowserVersions h _ _ 9) as [r e]. reflexivity.
Qed.

(** In terms of the variable [result]: when both versions encode and the
    variable holds -1, 0 or 1 after the call, [IsOlderThan] returns true
    with a nil error exactly for -1, and false with a nil error for 0 and
    for 1. *)
Theorem IsOlderThan_three_way :
  ~ contains_nul (Version i) -> ~ contains_nul requiredVersion ->
  reported = -1 \/ reported = 0 \/ reported = 1 ->
  (fst (IsOlderThan h i requiredVersion) = true <-> reported = -1)
  /\ (reported = -1 -> IsOlderThan h i requiredVersion = (true, None))
  /\ (reported = 0 \/ reported = 1 ->
      IsOlderThan h i requiredVersion = (false, None)).
Proof.
  intros H1 H2 Hr. rewrite (IsOlderThan_encoded H1 H2).
  destruct Hr as [-> | [-> | ->]]; simpl; repeat split;
    intros; try discriminate; try lia; try reflexivity;
    match goal with H : _ \/ _ |- _ => destruct H; discriminate end.
Qed.

(** In terms of the variable [result]: the error of [IsOlderThan] is
    non-nil if and only if one of the two versions holds a NUL byte or
    both encode and the variable holds a value outside -1..1 after the
    call. *)
Theorem IsOlderThan_error_iff :
  snd (IsOlderThan h i requiredVersion) <> None <->
  contains_nul (Version i) \/ contains_nul requiredVersion \/
  (~ contains_nul (Version i) /\ ~ contains_nul requiredVersion /\
   (reported < -1 \/ 1 < reported)).
Proof.
  destruct (contains_nul_dec (Version i)) as [H1 | H1].
  { unfold IsOlderThan. rewrite (UTF16PtrFromString_err _ H1). simpl.
    split; [auto | discriminate]. }
  destruct (contains_nul_dec requiredVersion) as [H2 | H2].
  { unfold IsOlderThan.
    rewrite (UTF16PtrFromString_ok _ H1), (UTF16PtrFromString_err _ H2).
    simpl. split; [auto | discriminate]. }
  rewrite (IsOlderThan_encoded H1 H2).
  destruct (reported <? -1) eqn:Elo; [apply Z.ltb_lt in Elo | apply Z.ltb_ge in Elo];
    simpl.
  - split; [intros _; right; right; auto | discriminate].
  - destruct (reported >? 1) eqn:Ehi; simpl.
    + apply Z.gtb_lt in Ehi. split; [intros _; right; right; auto | discriminate].
    + assert (reported <= 1) by (rewrite Z.gtb_ltb in Ehi; apply Z.ltb_ge in Ehi; lia).
      split; [congruence|]. intros [? | [? | (_ & _ & [? | ?])]]; try contradiction; lia.
Qed.
End Comparator.

(** ** Dialogs *)

Section Dialogs.
Variable h : Host.
Variables caption title : string.

Lemma MessageBox_encoded (flags : Z) :
  ~ contains_nul caption -> ~ contains_nul title ->
  MessageBox h caption title flags =
    (to_int (intSize h)
       (MessageBoxW h 0 (Utf16Of caption) (Utf16Of title) flags), None).
Proof.
  intros H1 H2. unfold MessageBox.
  now rewrite (UTF16PtrFromString_ok _ H1), (UTF16PtrFromString_ok _ H2).
Qed.

(** C6: when the message box succeeds with button code [code],
    [Confirm] returns true exactly when [code] is 1 (OK) and false for
    every other code, Cancel (2) among them; its error is nil. *)
Theorem Confirm_ok_iff (code : Z) :
  MessageBox h caption title MB_OKCANCEL = (code, None) ->
  (fst (Confirm h caption title) = true <-> code = 1)
  /\ (code <> 1 -> Confirm h caption title = (false, None))
  /\ (code = 2 -> Confirm h caption title = (false, None))
  /\ snd (Confirm h caption title) = None.
Proof.
  intros Hbox. unfold Confirm. rewrite Hbox. simpl.
  destruct (code =? 1) eqn:E; [apply Z.eqb_eq in E | apply Z.eqb_neq in E].
  - repeat split; auto; intros; lia.
  - repeat split; auto; intros; try discriminate; contradiction.
Qed.

(** C7: the error of [MessageBox] is non-nil if and only if the caption
    or the title holds a NUL byte; once both encode, [MessageBox]
    returns the code of the native call, whatever it is, with a nil
    error. *)
Theorem MessageBox_error_iff (flags : Z) :
  (snd (MessageBox h caption title flags) <> None <->
   contains_nul caption \/ contains_nul title)
  /\ (~ contains_nul caption -> ~ contains_nul title ->
      MessageBox h caption title flags =
        (to_int (intSize h)
           (MessageBoxW h 0 (Utf16Of caption) (Utf16Of title) flags), None)).
Proof.
  split; [|apply MessageBox_encoded].
  destruct (contains_nul_dec caption) as [H1 | H1].
  { unfold MessageBox. rewrite (UTF16PtrFromString_err _ H1). simpl.
    split; [auto | discriminate]. }
  destruct (contains_nul_dec title) as [H2 | H2].
  { unfold MessageBox.
    rewrite (UTF16PtrFromString_ok _ H1), (UTF16PtrFromString_err _ H2).
    simpl. split; [auto | discriminate]. }
  rewrite (MessageBox_encoded flags H1 H2). simpl.
  split; [congruence | tauto].
Qed.
End Dialogs.

(** ** Registry query *)

(** A read that fails leaves the string empty. *)
Lemma GetStringValue_error_empty (k : Key) (name : string) :
  snd (GetStringValue k name) <> None -> value_of k name = "".
Proof.
  unfold value_of, GetStringValue.
  destruct (k !! name) as [[s | s | typ | e] |]; simpl; congruence.
Qed.

Lemma GetStringValue_missing (k : Key) (name : string) :
  k !! name = None -> value_of k name = "".
Proof. intros H. unfold value_of, GetStringValue. now rewrite H. Qed.

Lemma getKeyValue_run (k : Key) (name : string) (w : world) :
  getKeyValue k name w =
    (value_of k name,
     {| trace := trace w ++ [EvGetStringValue name]; closes := closes w;
        defers := defers w |}).
Proof.
  unfold getKeyValue, value_of, bind, emit, ret.
  destruct (GetStringValue k name) as [[s typ] e]. reflexivity.
Qed.

(** The whole run of [GetInstalledVersion], by whether the key opens. *)
Lemma GetInstalledVersion_run (h : Host) :
  run (GetInstalledVersion h) =
    match OpenKey h (regkey (GOARCH h)) with
    | inr _ => (None, [EvOpenKey (regkey (GOARCH h))])
    | inl k =>
        (Some {| Location := value_of k "location";
                 Name := value_of k "name";
                 Version := value_of k "pv";
                 SilentUninstall := value_of k "SilentUninstall" |},
         [EvOpenKey (regkey (GOARCH h));
          EvGetStringValue "location"; EvGetStringValue "name";
          EvGetStringValue "pv"; EvGetStringValue "SilentUninstall"])
    end.
Proof.
  unfold run, GetInstalledVersion, bind, emit.
  destruct (OpenKey h (regkey (GOARCH h))) as [k | e]; [|reflexivity].
  rewrite !getKeyValue_run. reflexivity.
Qed.

(** C5: when the key cannot be opened [GetInstalledVersion] returns nil
    (its only result: there is no error to surface); when it opens, the
    result is an [Info] whose four fields are what the reads of
    [location], [name], [pv] and [SilentUninstall] yield, and each field
    whose value is missing or whose read fails is the empty string. *)
Theorem GetInstalledVersion_absent_or_populated (h : Host) :
  (forall e, OpenKey h (regkey (GOARCH h)) = inr e ->
     fst (run (GetInstalledVersion h)) = None)
  /\ (forall k, OpenKey h (regkey (GOARCH h)) = inl k ->
      exists info, fst (run (GetInstalledVersion h)) = Some info
        /\ Location info = value_of k "location"
        /\ Name info = value_of k "name"
        /\ Version info = value_of k "pv"
        /\ SilentUninstall info = value_of k "SilentUninstall"
        /\ (forall name, k !! name = None \/ snd (GetStringValue k name) <> None ->
              value_of k name = "")).
Proof.
  rewrite GetInstalledVersion_run. split.
  - intros e ->. reflexivity.
  - intros k ->. eexists. split; [reflexivity|]. simpl.
    repeat split.
    intros name [Hm | He];
      [now apply GetStringValue_missing | now apply GetStringValue_error_empty].
Qed.

(** C8: the key that [GetInstalledVersion] opens is a function of the
    architecture alone: the EdgeUpdate client key without [WOW6432Node]
    for [386], the one under [WOW6432Node] for every other architecture.
    It is the first and only key of the run, and when it opens the reads
    are exactly [location], [name], [pv] and [SilentUninstall], in this
    order, which fill [Location], [Name], [Version] and
    [SilentUninstall]. *)
Theorem GetInstalledVersion_reads (h : Host) :
  regkey "386" =
    "SOFTWARE\Microsoft\EdgeUpdate\Clients\{F3017226-FE2A-4295-8BDF-00C3A9A7E4C5}"
  /\ (GOARCH h <> "386" ->
      regkey (GOARCH h) =
        "SOFTWARE\WOW6432Node\Microsoft\EdgeUpdate\Clients\{F3017226-FE2A-4295-8BDF-00C3A9A7E4C5}")
  /\ (forall h', GOARCH h' = GOARCH h ->
      hd_error (snd (run (GetInstalledVersion h'))) =
      hd_error (snd (run (GetInstalledVersion h))))
  /\ (forall k, OpenKey h (regkey (GOARCH h)) = inl k ->
      run (GetInstalledVersion h) =
        (Some {| Location := value_of k "location";
                 Name := value_of k "name";
                 Version := value_of k "pv";
                 SilentUninstall := value_of k "SilentUninstall" |},
         [EvOpenKey (regkey (GOARCH h));
          EvGetStringValue "location"; EvGetStringValue "name";
          EvGetStringValue "pv"; EvGetStringValue "SilentUninstall"])).
Proof.
  split; [reflexivity|]. split; [|split].
  - intros Harch. unfold regkey.
    destruct (String.eqb (GOARCH h) "386") eqn:E; [|reflexivity].
    apply String.eqb_eq in E. contradiction.
  - intros h' Harch. rewrite !GetInstalledVersion_run, Harch.
    destruct (OpenKey h' _), (OpenKey h _); reflexivity.
  - intros k Hk. rewrite GetInstalledVersion_run, Hk. reflexivity.
Qed.

(** ** Installer *)

(** Open the body of the installer down to the answers of the host. *)
Ltac unfold_body :=
  unfold install_body, bind, call, emit, ret, defer, out_Close; simpl.

(** Split on one answer of the host; an error ends the path at once. *)
Ltac answer t := destruct t; simpl; [reflexivity|].

(** What the [return] statements after the launch assign to [result]. *)
Lemma wait_result_exited (wait : option error) (code : Z) :
  exited wait code ->
  match wait with
  | Some (ExitError (WaitStatus status)) => status =? 0
  | _ => true
  end = (code =? 0).
Proof. intros [[-> ->] | ->]; reflexivity. Qed.

(** The whole run of [InstallUsingBootstrapper], path by path: the pair
    returned after the deferred closures ran, and the outside calls. *)
Lemma install_run (h : Host) :
  run (InstallUsingBootstrapper h) =
    let create := EvCreate (installer h) in
    let get := EvHttpGet bootstrapperURL in
    let start := EvStart (installer h) in
    match os_Create h (installer h) with
    | Some e => ((false, Some e), [create])
    | None =>
    match http_Get h bootstrapperURL with
    | Some _ => ((false, file_Close h 0%nat), [create; get; EvCloseFile 0])
    | None =>
    match io_Copy h with
    | Some _ =>
        ((false, file_Close h 0%nat),
         [create; get; EvCopy; EvCloseBody; EvCloseFile 0])
    | None =>
    match file_Close h 0%nat with
    | Some _ =>
        ((false, file_Close h 1%nat),
         [create; get; EvCopy; EvCloseFile 0; EvCloseBody; EvCloseFile 1])
    | None =>
    match cmd_Start h (installer h) with
    | Some _ =>
        ((false, file_Close h 1%nat),
         [create; get; EvCopy; EvCloseFile 0; start;
          EvCloseBody; EvCloseFile 1])
    | None =>
        ((match cmd_Wait h with
          | Some (ExitError (WaitStatus status)) => status =? 0
          | _ => true
          end, file_Close h 1%nat),
         [create; get; EvCopy; EvCloseFile 0; start; EvWait;
          EvCloseBody; EvCloseFile 1])
    end end end end end.
Proof.
  unfold run, InstallUsingBootstrapper. unfold_body.
  answer (os_Create h (installer h)).
  answer (http_Get h bootstrapperURL).
  answer (io_Copy h).
  answer (file_Close h 0%nat).
  answer (cmd_Start h (installer h)).
  destruct (cmd_Wait h) as [[| | | | | [status|] |] |]; reflexivity.
Qed.

(** After a successful download and launch, the returned pair is the
    verdict on the wait and the answer of the second close. *)
Lemma install_launched (h : Host) :
  downloads h -> cmd_Start h (installer h) = None ->
  fst (run (InstallUsingBootstrapper h)) =
    (match cmd_Wait h with
     | Some (ExitError (WaitStatus status)) => status =? 0
     | _ => true
     end, file_Close h 1%nat).
Proof.
  intros (Hc & Hg & Hcp & Hcl) Hs.
  rewrite install_run, Hc, Hg, Hcp, Hcl, Hs. reflexivity.
Qed.

(** The verdict follows the exit status; the error is the second close's. *)
Lemma install_exited (h : Host) (code : Z) :
  downloads h -> cmd_Start h (installer h) = None ->
  exited (cmd_Wait h) code ->
  fst (run (InstallUsingBootstrapper h)) = (code =? 0, file_Close h 1%nat).
Proof.
  intros Hd Hs Hw. rewrite (install_launched h Hd Hs).
  now rewrite (wait_result_exited _ _ Hw).
Qed.

(** A failed launch returns false and, again, the second close's answer. *)
Lemma install_not_started (h : Host) (e : error) :
  downloads h -> cmd_Start h (installer h) = Some e ->
  fst (run (InstallUsingBootstrapper h)) = (false, file_Close h 1%nat).
Proof.
  intros (Hc & Hg & Hcp & Hcl) Hs.
  rewrite install_run, Hc, Hg, Hcp, Hcl, Hs. reflexivity.
Qed.

(** C1, at a run where every step succeeds and the installer exits with
    status 0, respectively 1: the verdict is true, respectively false, but
    the returned error is not nil; it is the error of the deferred second
    close of the temp file. *)
Theorem install_exit_status_returns_close_error :
  exited None 0
  /\ fst (run (InstallUsingBootstrapper
       (sample_host "amd64" (inr ErrNotExist) 0 1 None None)))
     = (true, Some ErrClosed)
  /\ exited (Some (ExitError (WaitStatus 1))) 1
  /\ fst (run (InstallUsingBootstrapper
       (sample_host "amd64" (inr ErrNotExist) 0 1 None
          (Some (ExitError (WaitStatus 1))))))
     = (false, Some ErrClosed).
Proof.
  repeat split; try reflexivity.
  - left; split; reflexivity.
  - right; reflexivity.
Qed.


(** Whatever the second close answers, a failed launch and an installer
    that ran and exited non-zero return the same pair. *)
Lemma install_launch_failure_same_pair (h : Host) (e : error) (code : Z) :
  downloads h -> cmd_Start h (installer h) = Some e -> code <> 0 ->
  fst (run (InstallUsingBootstrapper h)) =
  fst (run (InstallUsingBootstrapper
         (set_Wait (set_Start h None) (Some (ExitError (WaitStatus code)))))).
Proof.
  intros Hd Hs Hcode. rewrite (install_not_started h e Hd Hs).
  rewrite (install_exited (set_Wait (set_Start h None) _) code);
    [| exact Hd | reflexivity | right; reflexivity ].
  simpl. apply Z.eqb_neq in Hcode. now rewrite Hcode.
Qed.

(** The closures pending when the body returns: the close of the temp
    file is always the oldest, the close of the response body sits on top
    of it once the request succeeded. *)
Lemma install_body_defers (h : Host) :
  os_Create h (installer h) = None ->
  defers (snd (install_body h init)) =
    match http_Get h bootstrapperURL with
    | None => [DeferCloseBody; DeferCloseOut]
    | Some _ => [DeferCloseOut]
    end.
Proof.
  intros Hc. unfold_body. rewrite Hc; simpl.
  answer (http_Get h bootstrapperURL).
  answer (io_Copy h).
  answer (file_Close h 0%nat).
  answer (cmd_Start h (installer h)).
  destruct (cmd_Wait h) as [[| | | | | [status|] |] |]; reflexivity.
Qed.

(** C9: in every run that gets past the creation of the temp file, the
    closures pending at exit are the close of the temp file and, above
    it, the close of the response body when there is one; they overwrite
    the named result [err], so the run ends with a close of the temp file
    whose answer is the returned error.  On every path that reaches the
    explicit close, that last close is the second one on the file and its
    answer is the returned error, also when the download and the
    installer both succeed. *)
Theorem install_error_is_deferred_close (h : Host) :
  os_Create h (installer h) = None ->
  let r := fst (run (InstallUsingBootstrapper h)) in
  let tr := snd (run (InstallUsingBootstrapper h)) in
  (exists ds, defers (snd (install_body h init)) = ds ++ [DeferCloseOut])
  /\ (exists pre n, tr = pre ++ [EvCloseFile n] /\ snd r = file_Close h n)
  /\ (http_Get h bootstrapperURL = None ->
      defers (snd (install_body h init)) = [DeferCloseBody; DeferCloseOut]
      /\ exists pre n, tr = pre ++ [EvCloseBody; EvCloseFile n])
  /\ (http_Get h bootstrapperURL = None -> io_Copy h = None ->
      snd r = file_Close h 1%nat
      /\ exists pre mid,
           tr = pre ++ [EvCloseFile 0] ++ mid ++ [EvCloseBody; EvCloseFile 1])
  /\ (downloads h -> cmd_Start h (installer h) = None -> cmd_Wait h = None ->
      r = (true, file_Close h 1%nat)).
Proof.
  intros Hc r tr. subst r tr.
  rewrite (install_body_defers h Hc), install_run, Hc.
  split; [|split; [|split; [|split]]].
  - destruct (http_Get h bootstrapperURL);
      [exists [] | exists [DeferCloseBody]]; reflexivity.
  - destruct (http_Get h bootstrapperURL).
    { exists [EvCreate (installer h); EvHttpGet bootstrapperURL], 0%nat. now split. }
    destruct (io_Copy h).
    { exists [EvCreate (installer h); EvHttpGet bootstrapperURL; EvCopy; EvCloseBody],
        0%nat. now split. }
    destruct (file_Close h 0%nat).
    { exists [EvCreate (installer h); EvHttpGet bootstrapperURL; EvCopy;
              EvCloseFile 0; EvCloseBody], 1%nat. now split. }
    destruct (cmd_Start h (installer h)).
    { exists [EvCreate (installer h); EvHttpGet bootstrapperURL; EvCopy;
              EvCloseFile 0; EvStart (installer h); EvCloseBody], 1%nat. now split. }
    exists [EvCreate (installer h); EvHttpGet bootstrapperURL; EvCopy;
            EvCloseFile 0; EvStart (installer h); EvWait; EvCloseBody], 1%nat.
    now split.
  - intros ->. split; [reflexivity|].
    destruct (io_Copy h).
    { exists [EvCreate (installer h); EvHttpGet bootstrapperURL; EvCopy], 0%nat.
      reflexivity. }
    destruct (file_Close h 0%nat).
    { exists [EvCreate (installer h); EvHttpGet bootstrapperURL; EvCopy;
              EvCloseFile 0], 1%nat. reflexivity. }
    destruct (cmd_Start h (installer h)).
    { exists [EvCreate (installer h); EvHttpGet bootstrapperURL; EvCopy;
              EvCloseFile 0; EvStart (installer h)], 1%nat. reflexivity. }
    exists [EvCreate (installer h); EvHttpGet bootstrapperURL; EvCopy;
            EvCloseFile 0; EvStart (installer h); EvWait], 1%nat.
    reflexivity.
  - intros -> ->.
    destruct (file_Close h 0%nat) eqn:Eclose.
    { split; [reflexivity|].
      exists [EvCreate (installer h); EvHttpGet bootstrapperURL; EvCopy], [].
      reflexivity. }
    destruct (cmd_Start h (installer h)).
    { split; [reflexivity|].
      exists [EvCreate (installer h); EvHttpGet bootstrapperURL; EvCopy],
        [EvStart (installer h)]. reflexivity. }
    split; [reflexivity|].
    exists [EvCreate (installer h); EvHttpGet bootstrapperURL; EvCopy],
      [EvStart (installer h); EvWait]. reflexivity.
  - intros (_ & Hg & Hcp & Hcl) Hs Hw. rewrite Hg, Hcp, Hcl, Hs, Hw. reflexivity.
Qed.

(** C10: when the installer started and the wait yields an error that is
    not an [ExitError] carrying a wait status, the verdict is true and the
    returned pair is the one of the same run with a nil wait error: the
    wait error is reported neither as false nor as an error. *)
Theorem install_wait_error_ignored (h : Host) (e : error) :
  downloads h -> cmd_Start h (installer h) = None ->
  cmd_Wait h = Some e -> (forall status, e <> ExitError (WaitStatus status)) ->
  fst (fst (run (InstallUsingBootstrapper h))) = true
  /\ snd (fst (run (InstallUsingBootstrapper h))) = file_Close h 1%nat
  /\ fst (run (InstallUsingBootstrapper h)) =
     fst (run (InstallUsingBootstrapper (set_Wait h None))).
Proof.
  intros Hd Hs Hw He.
  rewrite (install_launched h Hd Hs), (install_launched (set_Wait h None) Hd Hs).
  rewrite Hw. simpl.
  destruct e as [| | | | | [status|] |]; try (repeat split; reflexivity).
  exfalso. now apply (He status).
Qed.

(** ** The theorems at sample hosts *)

Lemma sample_versions_encode :
  ~ contains_nul (Version sample_info) /\ ~ contains_nul "90.0.818.66".
Proof. split; apply IndexByteString_absent; reflexivity. Qed.

Lemma sample_texts_encode :
  ~ contains_nul "Press Ok to install." /\ ~ contains_nul "Missing Requirements".
Proof. split; apply IndexByteString_absent; reflexivity. Qed.

Lemma IsOlderThan_three_way_witness :
  ~ contains_nul (Version sample_info) /\ ~ contains_nul "90.0.818.66"
  /\ reported older_host sample_info "90.0.818.66" = -1
  /\ IsOlderThan older_host sample_info "90.0.818.66" = (true, None).
Proof.
  destruct sample_versions_encode as [H1 H2].
  split; [exact H1|]. split; [exact H2|]. split; [reflexivity|].
  apply (IsOlderThan_three_way older_host sample_info "90.0.818.66" H1 H2
           (or_introl eq_refl)).
  reflexivity.
Defined.

Lemma GetInstalledVersion_absent_or_populated_witness :
  OpenKey bare_host (regkey (GOARCH bare_host)) = inr ErrNotExist
  /\ fst (run (GetInstalledVersion bare_host)) = None
  /\ OpenKey older_host (regkey (GOARCH older_host)) = inl sample_key
  /\ sample_key !! "SilentUninstall" = None
  /\ exists info, fst (run (GetInstalledVersion older_host)) = Some info
       /\ Version info = value_of sample_key "pv"
       /\ value_of sample_key "SilentUninstall" = "".
Proof.
  split; [reflexivity|]. split.
  { apply (proj1 (GetInstalledVersion_absent_or_populated bare_host) ErrNotExist).
    reflexivity. }
  split; [reflexivity|]. split; [reflexivity|].
  destruct (proj2 (GetInstalledVersion_absent_or_populated older_host)
              sample_key eq_refl) as (info & Hi & _ & _ & Hv & _ & Hempty).
  exists info. split; [exact Hi|]. split; [exact Hv|].
  apply Hempty. left. reflexivity.
Defined.

Lemma Confirm_ok_iff_witness :
  MessageBox older_host "Press Ok to install." "Missing Requirements" MB_OKCANCEL
    = (1, None)
  /\ fst (Confirm older_host "Press Ok to install." "Missing Requirements") = true
  /\ MessageBox bare_host "Press Ok to install." "Missing Requirements" MB_OKCANCEL
    = (2, None)
  /\ Confirm bare_host "Press Ok to install." "Missing Requirements" = (false, None).
Proof.
  split; [reflexivity|]. split.
  { apply (Confirm_ok_iff older_host "Press Ok to install." "Missing Requirements"
             1 eq_refl).
    reflexivity. }
  split; [reflexivity|].
  apply (Confirm_ok_iff bare_host "Press Ok to install." "Missing Requirements"
           2 eq_refl).
  reflexivity.
Defined.

Lemma MessageBox_error_iff_witness :
  ~ contains_nul "Press Ok to install." /\ ~ contains_nul "Missing Requirements"
  /\ MessageBox older_host "Press Ok to install." "Missing Requirements" MB_ICONERROR
     = (to_int (intSize older_host)
          (MessageBoxW older_host 0 (Utf16Of "Press Ok to install.")
             (Utf16Of "Missing Requirements") MB_ICONERROR), None).
Proof.
  destruct sample_texts_encode as [H1 H2].
  split; [exact H1|]. split; [exact H2|].
  exact (proj2 (MessageBox_error_iff older_host _ _ MB_ICONERROR) H1 H2).
Defined.

Lemma GetInstalledVersion_reads_witness :
  GOARCH older_host <> "386"
  /\ regkey (GOARCH older_host) =
       "SOFTWARE\WOW6432Node\Microsoft\EdgeUpdate\Clients\{F3017226-FE2A-4295-8BDF-00C3A9A7E4C5}"
  /\ OpenKey older_host (regkey (GOARCH older_host)) = inl sample_key
  /\ snd (run (GetInstalledVersion older_host)) =
       [EvOpenKey (regkey (GOARCH older_host));
        EvGetStringValue "location"; EvGetStringValue "name";
        EvGetStringValue "pv"; EvGetStringValue "SilentUninstall"].
Proof.
  assert (Harch : GOARCH older_host <> "386") by discriminate.
  destruct (GetInstalledVersion_reads older_host) as (_ & Hwow & _ & Hreads).
  split; [exact Harch|]. split; [exact (Hwow Harch)|]. split; [reflexivity|].
  rewrite (Hreads sample_key eq_refl). reflexivity.
Defined.

Lemma install_error_is_deferred_close_witness :
  os_Create older_host (installer older_host) = None
  /\ downloads older_host
  /\ cmd_Wait older_host = None
  /\ fst (run (InstallUsingBootstrapper older_host)) =
       (true, file_Close older_host 1%nat)
  /\ file_Close older_host 1%nat = Some ErrClosed.
Proof.
  assert (Hd : downloads older_host) by (repeat split).
  split; [reflexivity|]. split; [exact Hd|]. split; [reflexivity|].
  split; [|reflexivity].
  destruct (install_error_is_deferred_close older_host eq_refl)
    as (_ & _ & _ & _ & Hok).
  exact (Hok Hd eq_refl eq_refl).
Defined.

Lemma install_wait_error_ignored_witness :
  downloads wait_fault_host
  /\ cmd_Start wait_fault_host (installer wait_fault_host) = None
  /\ cmd_Wait wait_fault_host = Some (ExitError SysOther)
  /\ fst (fst (run (InstallUsingBootstrapper wait_fault_host))) = true.
Proof.
  assert (Hd : downloads wait_fault_host) by (repeat split).
  split; [exact Hd|]. split; [reflexivity|]. split; [reflexivity|].
  apply (install_wait_error_ignored wait_fault_host (ExitError SysOther)
           Hd eq_refl eq_refl).
  intros status. discriminate.
Defined.

(** * Further properties *)

(** ** The conversion of the dialog's return value *)

Lemma pow2_double (bits : Z) : 0 < bits -> 2 ^ bits = 2 * 2 ^ (bits - 1).
Proof.
  intros H. replace bits with (Z.succ (bits - 1)) at 1 by lia.
  apply Z.pow_succ_r. lia.
Qed.

Lemma to_int_small (bits x : Z) :
  0 < bits -> 0 <= x < 2 ^ (bits - 1) -> to_int bits x = x.
Proof.
  intros Hb Hx. unfold to_int. pose proof (pow2_double bits Hb) as Hp.
  rewrite Z.mod_small by lia. lia.
Qed.

Lemma to_int_large (bits x : Z) :
  0 < bits -> 2 ^ (bits - 1) <= x < 2 ^ bits -> to_int bits x = x - 2 ^ bits.
Proof.
  intros Hb Hx. unfold to_int. pose proof (pow2_double bits Hb) as Hp.
  replace (x + 2 ^ (bits - 1)) with ((x - 2 ^ (bits - 1)) + 1 * 2 ^ bits) by lia.
  rewrite Z.mod_add by lia. rewrite Z.mod_small by lia. lia.
Qed.

Lemma pow2_half_above_one (bits : Z) : 1 < bits -> 2 <= 2 ^ (bits - 1).
Proof.
  intros H. change 2 with (2 ^ 1) at 1.
  apply Z.pow_le_mono_r; lia.
Qed.

(** X1: once both texts encode, a native return below half the range of
    a machine word comes back from [MessageBox] unchanged, with a nil
    error; the button identifiers of the dialog are such values. *)
Theorem MessageBox_small_return_verbatim (h : Host) (caption title : string)
    (flags : Z) :
  ~ contains_nul caption -> ~ contains_nul title -> 0 < intSize h ->
  0 <= MessageBoxW h 0 (Utf16Of caption) (Utf16Of title) flags
    < 2 ^ (intSize h - 1) ->
  MessageBox h caption title flags =
    (MessageBoxW h 0 (Utf16Of caption) (Utf16Of title) flags, None).
Proof.
  intros H1 H2 Hb Hret.
  rewrite (MessageBox_encoded h caption title flags H1 H2).
  now rewrite (to_int_small _ _ Hb Hret).
Qed.

(** X2: a native return in the upper half of the word comes back
    negative: [MessageBox] returns it minus 2^intSize, so the code -1 of
    the error returns is also the code of the all-ones word, with a nil
    error. *)
Theorem MessageBox_large_return_wraps (h : Host) (caption title : string)
    (flags : Z) :
  ~ contains_nul caption -> ~ contains_nul title -> 0 < intSize h ->
  2 ^ (intSize h - 1) <= MessageBoxW h 0 (Utf16Of caption) (Utf16Of title) flags
    < 2 ^ intSize h ->
  MessageBox h caption title flags =
    (MessageBoxW h 0 (Utf16Of caption) (Utf16Of title) flags - 2 ^ intSize h, None)
  /\ fst (MessageBox h caption title flags) < 0.
Proof.
  intros H1 H2 Hb Hret.
  rewrite (MessageBox_encoded h caption title flags H1 H2).
  rewrite (to_int_large _ _ Hb Hret). split; [reflexivity|]. simpl. lia.
Qed.

(** X3: every error return of [MessageBox] is the pair (-1, EINVAL), and
    it is the same on every host and for every flag: the dialog is not
    consulted. *)
Theorem MessageBox_failure_sentinel (h : Host) (caption title : string)
    (flags : Z) :
  snd (MessageBox h caption title flags) <> None ->
  forall h' flags', MessageBox h' caption title flags' = (-1, Some EINVAL).
Proof.
  intros Herr h' flags'.
  destruct (contains_nul_dec caption) as [H1 | H1].
  { unfold MessageBox. now rewrite (UTF16PtrFromString_err _ H1). }
  destruct (contains_nul_dec title) as [H2 | H2].
  { unfold MessageBox.
    now rewrite (UTF16PtrFromString_ok _ H1), (UTF16PtrFromString_err _ H2). }
  rewrite (MessageBox_encoded h caption title flags H1 H2) in Herr.
  now contradiction Herr.
Qed.

(** X4: [Confirm] returns true exactly when the raw word returned by the
    native dialog is 1; no other word is turned into 1 by the conversion
    to [int]. *)
Theorem Confirm_true_iff_raw_one (h : Host) (caption title : string) :
  ~ contains_nul caption -> ~ contains_nul title -> 1 < intSize h ->
  0 <= MessageBoxW h 0 (Utf16Of caption) (Utf16Of title) MB_OKCANCEL
    < 2 ^ intSize h ->
  (fst (Confirm h caption title) = true <->
   MessageBoxW h 0 (Utf16Of caption) (Utf16Of title) MB_OKCANCEL = 1).
Proof.
  intros H1 H2 Hb Hret. unfold Confirm.
  rewrite (MessageBox_encoded h caption title MB_OKCANCEL H1 H2). simpl.
  set (r := MessageBoxW h 0 (Utf16Of caption) (Utf16Of title) MB_OKCANCEL) in *.
  pose proof (pow2_half_above_one _ Hb) as Hhalf.
  rewrite Z.eqb_eq.
  destruct (Z_lt_ge_dec r (2 ^ (intSize h - 1))) as [Hlo | Hhi].
  - rewrite to_int_small by lia. reflexivity.
  - rewrite to_int_large by lia. lia.
Qed.

(** X5: the error of [Confirm] is non-nil exactly when the caption or the
    title holds a NUL byte, and then [Confirm] returns (false, EINVAL)
    whatever the host. *)
Theorem Confirm_error_iff (h : Host) (caption title : string) :
  (snd (Confirm h caption title) <> None <->
   contains_nul caption \/ contains_nul title)
  /\ (contains_nul caption \/ contains_nul title ->
      Confirm h caption title = (false, Some EINVAL)).
Proof.
  unfold Confirm.
  destruct (contains_nul_dec caption) as [H1 | H1].
  { unfold MessageBox. rewrite (UTF16PtrFromString_err _ H1). simpl.
    split; [split; [auto | discriminate] | reflexivity]. }
  destruct (contains_nul_dec title) as [H2 | H2].
  { unfold MessageBox.
    rewrite (UTF16PtrFromString_ok _ H1), (UTF16PtrFromString_err _ H2). simpl.
    split; [split; [auto | discriminate] | reflexivity]. }
  rewrite (MessageBox_encoded h caption title MB_OKCANCEL H1 H2). simpl.
  split; [split; [congruence | tauto] | tauto].
Qed.

(** X6: [Error] returns nil exactly when both texts encode, whatever the
    native dialog returns (0, its failure value, included); otherwise it
    returns EINVAL. *)
Theorem Error_nil_iff (h : Host) (caption title : string) :
  (Error h caption title = None <->
   ~ contains_nul caption /\ ~ contains_nul title)
  /\ (contains_nul caption \/ contains_nul title ->
      Error h caption title = Some EINVAL).
Proof.
  unfold Error.
  destruct (contains_nul_dec caption) as [H1 | H1].
  { unfold MessageBox. rewrite (UTF16PtrFromString_err _ H1).
    split; [split; [discriminate | tauto] | reflexivity]. }
  destruct (contains_nul_dec title) as [H2 | H2].
  { unfold MessageBox.
    rewrite (UTF16PtrFromString_ok _ H1), (UTF16PtrFromString_err _ H2).
    split; [split; [discriminate | tauto] | reflexivity]. }
  rewrite (MessageBox_encoded h caption title MB_ICONERROR H1 H2).
  split; [split; [tauto | reflexivity] | tauto].
Qed.

(** ** More on the comparison *)

(** X7: [IsOlderThan] never returns true together with an error: a true
    answer means both versions encoded, the comparator reported -1, and
    the error is nil. *)
Theorem IsOlderThan_true_sound (h : Host) (i : Info) (requiredVersion : string) :
  fst (IsOlderThan h i requiredVersion) = true ->
  snd (IsOlderThan h i requiredVersion) = None
  /\ ~ contains_nul (Version i) /\ ~ contains_nul requiredVersion
  /\ reported h i requiredVersion = -1.
Proof.
  destruct (contains_nul_dec (Version i)) as [H1 | H1].
  { unfold IsOlderThan. rewrite (UTF16PtrFromString_err _ H1). discriminate. }
  destruct (contains_nul_dec requiredVersion) as [H2 | H2].
  { unfold IsOlderThan.
    rewrite (UTF16PtrFromString_ok _ H1), (UTF16PtrFromString_err _ H2).
    discriminate. }
  rewrite (IsOlderThan_encoded h i requiredVersion H1 H2).
  destruct ((reported h i requiredVersion <? -1) || (reported h i requiredVersion >? 1));
    simpl; [discriminate|].
  intros Hr. apply Z.eqb_eq in Hr. auto.
Qed.

(** X8: when the comparator leaves the variable [result] at its initial
    value 9, [IsOlderThan] returns false with the last error of the
    call. *)
Theorem IsOlderThan_untouched_result (h : Host) (i : Info)
    (requiredVersion : string) (lastErr : Z) :
  ~ contains_nul (Version i) -> ~ contains_nul requiredVersion ->
  CompareBrowserVersions h (Utf16Of (Version i)) (Utf16Of requiredVersion) 9
    = (9, lastErr) ->
  IsOlderThan h i requiredVersion = (false, Some (Errno lastErr)).
Proof.
  intros H1 H2 Hcmp.
  rewrite (IsOlderThan_encoded h i requiredVersion H1 H2).
  unfold reported. rewrite Hcmp. reflexivity.
Qed.

(** X9: a NUL byte in either version makes [IsOlderThan] return
    (false, EINVAL) on every host: the comparator plays no part. *)
Theorem IsOlderThan_encoding_failure (i : Info) (requiredVersion : string) :
  contains_nul (Version i) \/ contains_nul requiredVersion ->
  forall h, IsOlderThan h i requiredVersion = (false, Some EINVAL).
Proof.
  intros Hnul h. unfold IsOlderThan.
  destruct (contains_nul_dec (Version i)) as [H1 | H1].
  { now rewrite (UTF16PtrFromString_err _ H1). }
  rewrite (UTF16PtrFromString_ok _ H1).
  destruct Hnul as [H | H2]; [contradiction|].
  now rewrite (UTF16PtrFromString_err _ H2).
Qed.

(** ** More on the registry query *)

Lemma UTF16ToString_whole (s : string) :
  ~ contains_nul s -> UTF16ToString s = s.
Proof.
  unfold contains_nul. induction s as [|a rest IH]; simpl; [reflexivity|].
  intros Hnul. destruct (Ascii.eqb a Ascii.zero) eqn:Ea.
  - apply Ascii.eqb_eq in Ea. exfalso. auto.
  - f_equal. apply IH. auto.
Qed.

Lemma value_of_stored (k : Key) (name s : string) :
  stored k name s -> value_of k name = UTF16ToString s.
Proof.
  unfold stored, value_of, GetStringValue. intros [-> | ->]; reflexivity.
Qed.

(** X10: when the opened key holds strings under [location], [name],
    [pv] and [SilentUninstall], the [Info] returned carries these four
    strings, each in its field, cut at its first NUL byte; strings free
    of NUL bytes come back exactly. *)
Theorem GetInstalledVersion_stored_strings (h : Host) (k : Key)
    (location name pv silent : string) :
  OpenKey h (regkey (GOARCH h)) = inl k ->
  stored k "location" location -> stored k "name" name ->
  stored k "pv" pv -> stored k "SilentUninstall" silent ->
  fst (run (GetInstalledVersion h)) =
    Some {| Location := UTF16ToString location; Name := UTF16ToString name;
            Version := UTF16ToString pv;
            SilentUninstall := UTF16ToString silent |}
  /\ (~ contains_nul location -> ~ contains_nul name ->
      ~ contains_nul pv -> ~ contains_nul silent ->
      fst (run (GetInstalledVersion h)) =
        Some {| Location := location; Name := name; Version := pv;
                SilentUninstall := silent |}).
Proof.
  intros Hk Hl Hn Hp Hs. rewrite GetInstalledVersion_run, Hk. simpl.
  rewrite (value_of_stored _ _ _ Hl), (value_of_stored _ _ _ Hn),
    (value_of_stored _ _ _ Hp), (value_of_stored _ _ _ Hs).
  split; [reflexivity|]. intros Nl Nn Np Ns.
  now rewrite (UTF16ToString_whole _ Nl), (UTF16ToString_whole _ Nn),
    (UTF16ToString_whole _ Np), (UTF16ToString_whole _ Ns).
Qed.

(** X11: the query looks at nothing but the four values: two hosts of
    the same architecture whose keys agree on [location], [name], [pv]
    and [SilentUninstall] give the same result and the same reads,
    whatever else the keys hold. *)
Theorem GetInstalledVersion_ignores_other_values (h h' : Host) (k k' : Key) :
  GOARCH h = GOARCH h' ->
  OpenKey h (regkey (GOARCH h)) = inl k ->
  OpenKey h' (regkey (GOARCH h')) = inl k' ->
  k !! "location" = k' !! "location" -> k !! "name" = k' !! "name" ->
  k !! "pv" = k' !! "pv" -> k !! "SilentUninstall" = k' !! "SilentUninstall" ->
  run (GetInstalledVersion h) = run (GetInstalledVersion h').
Proof.
  intros Harch Hk Hk' Hl Hn Hp Hs.
  rewrite !GetInstalledVersion_run, Hk, Hk', Harch.
  unfold value_of, GetStringValue. now rewrite Hl, Hn, Hp, Hs.
Qed.

(** ** More on the installer *)

(** Settle a statement about the trace of one path. *)
Ltac on_trace := simpl; intuition (try discriminate; try congruence).

(** X12: when the temp file cannot be created, the error of [os.Create]
    is returned as it is, with a false verdict, and nothing else is done:
    no request, no close, no launch. *)
Theorem install_create_failure (h : Host) (e : error) :
  os_Create h (installer h) = Some e ->
  run (InstallUsingBootstrapper h) = ((false, Some e), [EvCreate (installer h)]).
Proof. intros Hc. rewrite install_run, Hc. reflexivity. Qed.

(** X13: when the request or the copy fails, the verdict is false and
    the returned error is the answer of the one close of the temp file,
    not the error of the download; with a close that succeeds the
    function returns (false, nil). *)
Theorem install_download_failure (h : Host) (e : error) :
  os_Create h (installer h) = None ->
  http_Get h bootstrapperURL = Some e
  \/ (http_Get h bootstrapperURL = None /\ io_Copy h = Some e) ->
  fst (run (InstallUsingBootstrapper h)) = (false, file_Close h 0%nat)
  /\ (file_Close h 0%nat = None ->
      fst (run (InstallUsingBootstrapper h)) = (false, None))
  /\ ~ In (EvStart (installer h)) (snd (run (InstallUsingBootstrapper h))).
Proof.
  intros Hc Hfail. rewrite install_run, Hc.
  destruct Hfail as [Hg | [Hg Hcp]].
  - rewrite Hg. split; [reflexivity|]. split; [now intros -> | on_trace].
  - rewrite Hg, Hcp. split; [reflexivity|]. split; [now intros -> | on_trace].
Qed.

(** X14: [cmd.Start] is called, whether or not it succeeds, exactly in
    the runs where the temp file was created, the download was written
    and the explicit close succeeded, and the path it is called with is
    the path of the file that was created. *)
Theorem install_start_attempted_iff_downloads (h : Host) (p : string) :
  In (EvStart p) (snd (run (InstallUsingBootstrapper h))) <->
  downloads h /\ p = installer h.
Proof.
  rewrite install_run. unfold downloads.
  destruct (os_Create h (installer h)) eqn:Hc; [on_trace|].
  destruct (http_Get h bootstrapperURL) eqn:Hg; [on_trace|].
  destruct (io_Copy h) eqn:Hcp; [on_trace|].
  destruct (file_Close h 0%nat) eqn:Hcl; [on_trace|].
  destruct (cmd_Start h (installer h)) eqn:Hs; on_trace.
Qed.

(** X15: the function waits exactly in the runs where the download
    succeeded and the installer started. *)
Theorem install_wait_iff_started (h : Host) :
  In EvWait (snd (run (InstallUsingBootstrapper h))) <->
  downloads h /\ cmd_Start h (installer h) = None.
Proof.
  rewrite install_run. unfold downloads.
  destruct (os_Create h (installer h)) eqn:Hc; [on_trace|].
  destruct (http_Get h bootstrapperURL) eqn:Hg; [on_trace|].
  destruct (io_Copy h) eqn:Hcp; [on_trace|].
  destruct (file_Close h 0%nat) eqn:Hcl; [on_trace|].
  destruct (cmd_Start h (installer h)) eqn:Hs; on_trace.
Qed.

(** X16: a true verdict is returned only after the download succeeded,
    the installer started and was waited for, and the wait did not report
    a non-zero exit status. *)
Theorem install_true_sound (h : Host) :
  fst (fst (run (InstallUsingBootstrapper h))) = true ->
  downloads h /\ cmd_Start h (installer h) = None
  /\ In EvWait (snd (run (InstallUsingBootstrapper h)))
  /\ (forall status, cmd_Wait h = Some (ExitError (WaitStatus status)) ->
      status = 0).
Proof.
  rewrite install_run. unfold downloads.
  destruct (os_Create h (installer h)) eqn:Hc; [discriminate|].
  destruct (http_Get h bootstrapperURL) eqn:Hg; [discriminate|].
  destruct (io_Copy h) eqn:Hcp; [discriminate|].
  destruct (file_Close h 0%nat) eqn:Hcl; [discriminate|].
  destruct (cmd_Start h (installer h)) eqn:Hs; [discriminate|].
  simpl. intros Hv. repeat split; auto 10.
  intros status Hw. rewrite Hw in Hv. now apply Z.eqb_eq.
Qed.

(** X17: the temp file is not closed when it was not created, closed
    once when the request or the copy fails, and closed twice on every
    path that reaches the explicit close. *)
Theorem install_file_closes (h : Host) :
  file_closes (snd (run (InstallUsingBootstrapper h))) =
    match os_Create h (installer h) with
    | Some _ => 0%nat
    | None =>
        match http_Get h bootstrapperURL, io_Copy h with
        | None, None => 2%nat
        | _, _ => 1%nat
        end
    end.
Proof.
  rewrite install_run.
  destruct (os_Create h (installer h)); [reflexivity|].
  destruct (http_Get h bootstrapperURL); [reflexivity|].
  destruct (io_Copy h); [reflexivity|].
  destruct (file_Close h 0%nat); [reflexivity|].
  destruct (cmd_Start h (installer h)); reflexivity.
Qed.

(** X18: the answer of the close of the response body never reaches the
    caller: with any other answer the run returns the same pair and makes
    the same calls. *)
Theorem install_body_close_ignored (h : Host) (e : option error) :
  run (InstallUsingBootstrapper (set_body_Close h e)) =
  run (InstallUsingBootstrapper h).
Proof. rewrite !install_run. reflexivity. Qed.

(** ** The workflow of the README *)

Section Workflow.
Variable errorText : error -> string.
Variable h : Host.

Local Abbreviation installed := (fst (run (GetInstalledVersion h))).
Local Abbreviation outcome := (BootstrapRuntime errorText h).

(** The notice of a failed installation is a fixed text that encodes. *)
Lemma failure_notice_accepted :
  Error h "The runtime failed to install correctly. Please try again." "Error"
    = None.
Proof. reflexivity. Qed.

(** The block that asks and installs appends to what was done: first the
    call of [Confirm]. *)
Lemma confirm_and_install_prefix (message : string) (done : list action) :
  exists rest,
    snd (confirm_and_install errorText h message done) =
      done ++ ActConfirm message "Missing Requirements" :: rest.
Proof.
  unfold confirm_and_install.
  destruct (Confirm h message "Missing Requirements") as [confirmed [e|]]; simpl.
  { now exists []. }
  destruct confirmed; [|now exists []].
  destruct (fst (run (InstallUsingBootstrapper h))) as [correct [e|]]; simpl.
  { exists [ActInstall; ActError (errorText e) "Error"].
    now rewrite <- !app_assoc. }
  destruct correct; simpl.
  - exists [ActInstall]. now rewrite <- !app_assoc.
  - eexists [ActInstall; ActError _ "Error"]. now rewrite <- !app_assoc.
Qed.

(** Within the block, the installer runs only on a true answer of
    [Confirm], and then the block returns the installer's error. *)
Lemma confirm_and_install_installs (message : string) (done : list action) :
  ~ In ActInstall done ->
  In ActInstall (snd (confirm_and_install errorText h message done)) ->
  Confirm h message "Missing Requirements" = (true, None)
  /\ fst (confirm_and_install errorText h message done) =
     snd (fst (run (InstallUsingBootstrapper h))).
Proof.
  intros Hdone. unfold confirm_and_install.
  destruct (Confirm h message "Missing Requirements") as [confirmed [e|]]; simpl.
  { rewrite in_app_iff. simpl. intuition discriminate. }
  destruct confirmed; simpl.
  2:{ rewrite in_app_iff. simpl. intuition discriminate. }
  intros _. split; [reflexivity|].
  destruct (fst (run (InstallUsingBootstrapper h))) as [correct [e|]]; simpl;
    [reflexivity|].
  destruct correct; simpl; [reflexivity | apply failure_notice_accepted].
Qed.

(** X19: when a runtime is installed and [IsOlderThan] finds it not
    older, without error, the workflow returns nil after the query and
    the comparison alone: no dialog, no installation. *)
Theorem Bootstrap_up_to_date (info : Info) :
  installed = Some info ->
  IsOlderThan h info "90.0.818.66" = (false, None) ->
  outcome = (None, [ActQuery; ActCompare "90.0.818.66"]).
Proof.
  intros Hi Hcmp. unfold BootstrapRuntime. rewrite Hi, Hcmp. reflexivity.
Qed.

(** X20: when the comparison fails, the workflow returns that error
    after one call of [Error] with its text; the user is not asked and
    nothing is installed. *)
Theorem Bootstrap_compare_error (info : Info) (verdict : bool) (e : error) :
  installed = Some info ->
  IsOlderThan h info "90.0.818.66" = (verdict, Some e) ->
  outcome =
    (Some e, [ActQuery; ActCompare "90.0.818.66"; ActError (errorText e) "Error"]).
Proof.
  intros Hi Hcmp. unfold BootstrapRuntime. rewrite Hi, Hcmp. reflexivity.
Qed.

(** X21: the workflow asks before it installs, and with the text that
    fits: without an installed runtime it asks at once, saying the runtime
    is required, and compares nothing; with an older runtime it asks,
    after the comparison, saying the runtime needs updating. *)
Theorem Bootstrap_prompt :
  (installed = None ->
   exists rest, snd outcome =
     ActQuery
     :: ActConfirm "The WebView2 runtime is required. Press Ok to install."
          "Missing Requirements"
     :: rest)
  /\ (forall info, installed = Some info ->
      IsOlderThan h info "90.0.818.66" = (true, None) ->
      exists rest, snd outcome =
        ActQuery :: ActCompare "90.0.818.66"
        :: ActConfirm "The WebView2 runtime needs updating. Press Ok to install."
             "Missing Requirements"
        :: rest).
Proof.
  split.
  - intros Hi. unfold BootstrapRuntime. rewrite Hi.
    apply (confirm_and_install_prefix _ [ActQuery]).
  - intros info Hi Hcmp. unfold BootstrapRuntime. rewrite Hi, Hcmp.
    apply (confirm_and_install_prefix _ [ActQuery; ActCompare "90.0.818.66"]).
Qed.

(** X22: the workflow runs the installer only after [Confirm] returned
    true without error for the text it asked with. *)
Theorem Bootstrap_installs_only_confirmed :
  In ActInstall (snd outcome) ->
  exists message,
    In (ActConfirm message "Missing Requirements") (snd outcome)
    /\ Confirm h message "Missing Requirements" = (true, None).
Proof.
  unfold BootstrapRuntime.
  destruct installed as [info|].
  - destruct (IsOlderThan h info "90.0.818.66") as [older [e|]].
    { simpl. intuition discriminate. }
    destruct older; [|simpl; intuition discriminate].
    intros Hin. eexists. split.
    + destruct (confirm_and_install_prefix
                  "The WebView2 runtime needs updating. Press Ok to install."
                  [ActQuery; ActCompare "90.0.818.66"]) as [rest ->].
      apply in_app_iff. right. left. reflexivity.
    + apply confirm_and_install_installs in Hin; [apply Hin|].
      simpl. intuition discriminate.
  - intros Hin. eexists. split.
    + destruct (confirm_and_install_prefix
                  "The WebView2 runtime is required. Press Ok to install."
                  [ActQuery]) as [rest ->].
      apply in_app_iff. right. left. reflexivity.
    + apply confirm_and_install_installs in Hin; [apply Hin|].
      simpl. intuition discriminate.
Qed.

(** X23: whenever the workflow ran the installer, it returns the
    installer's error and nothing else: nil when that error is nil, also
    when the verdict was false and only the notice was shown. *)
Theorem Bootstrap_returns_install_error :
  In ActInstall (snd outcome) ->
  fst outcome = snd (fst (run (InstallUsingBootstrapper h))).
Proof.
  unfold BootstrapRuntime.
  destruct installed as [info|].
  - destruct (IsOlderThan h info "90.0.818.66") as [older [e|]].
    { simpl. intuition discriminate. }
    destruct older; [|simpl; intuition discriminate].
    intros Hin. apply confirm_and_install_installs in Hin; [apply Hin|].
    simpl. intuition discriminate.
  - intros Hin. apply confirm_and_install_installs in Hin; [apply Hin|].
    simpl. intuition discriminate.
Qed.
End Workflow.

(** ** The further properties at sample hosts *)

Lemma nul_text_contains_nul : contains_nul nul_text.
Proof. left. reflexivity. Qed.

Lemma MessageBox_small_return_verbatim_witness :
  ~ contains_nul "Press Ok to install." /\ ~ contains_nul "Missing Requirements"
  /\ MessageBox older_host "Press Ok to install." "Missing Requirements" MB_OKCANCEL
     = (1, None).
Proof.
  destruct sample_texts_encode as [H1 H2].
  split; [exact H1|]. split; [exact H2|].
  apply (MessageBox_small_return_verbatim older_host _ _ MB_OKCANCEL H1 H2).
  - reflexivity.
  - simpl. lia.
Defined.

Lemma MessageBox_large_return_wraps_witness :
  ~ contains_nul "Press Ok to install." /\ ~ contains_nul "Missing Requirements"
  /\ MessageBox allones_host "Press Ok to install." "Missing Requirements"
       MB_ICONERROR = (-1, None).
Proof.
  destruct sample_texts_encode as [H1 H2].
  split; [exact H1|]. split; [exact H2|].
  assert (Hb : 0 < intSize allones_host) by reflexivity.
  assert (Hret : 2 ^ (intSize allones_host - 1)
                 <= MessageBoxW allones_host 0 (Utf16Of "Press Ok to install.")
                      (Utf16Of "Missing Requirements") MB_ICONERROR
                 < 2 ^ intSize allones_host) by (simpl; lia).
  exact (proj1 (MessageBox_large_return_wraps allones_host _ _ MB_ICONERROR
                  H1 H2 Hb Hret)).
Defined.

Lemma MessageBox_failure_sentinel_witness :
  snd (MessageBox older_host nul_text "Error" MB_ICONERROR) <> None
  /\ MessageBox bare_host nul_text "Error" MB_OKCANCEL = (-1, Some EINVAL).
Proof.
  assert (Herr : snd (MessageBox older_host nul_text "Error" MB_ICONERROR) <> None)
    by discriminate.
  split; [exact Herr|].
  exact (MessageBox_failure_sentinel older_host nul_text "Error" MB_ICONERROR
           Herr bare_host MB_OKCANCEL).
Defined.

Lemma Confirm_true_iff_raw_one_witness :
  ~ contains_nul "Press Ok to install." /\ ~ contains_nul "Missing Requirements"
  /\ fst (Confirm older_host "Press Ok to install." "Missing Requirements") = true.
Proof.
  destruct sample_texts_encode as [H1 H2].
  split; [exact H1|]. split; [exact H2|].
  assert (Hb : 1 < intSize older_host) by reflexivity.
  assert (Hret : 0 <= MessageBoxW older_host 0 (Utf16Of "Press Ok to install.")
                        (Utf16Of "Missing Requirements") MB_OKCANCEL
                 < 2 ^ intSize older_host) by (simpl; lia).
  apply (Confirm_true_iff_raw_one older_host _ _ H1 H2 Hb Hret).
  reflexivity.
Defined.

Lemma Confirm_error_iff_witness :
  contains_nul nul_text
  /\ Confirm older_host nul_text "Missing Requirements" = (false, Some EINVAL).
Proof.
  split; [exact nul_text_contains_nul|].
  apply (proj2 (Confirm_error_iff older_host nul_text "Missing Requirements")).
  left. exact nul_text_contains_nul.
Defined.

Lemma Error_nil_iff_witness :
  contains_nul nul_text
  /\ Error older_host "Error" nul_text = Some EINVAL.
Proof.
  split; [exact nul_text_contains_nul|].
  apply (proj2 (Error_nil_iff older_host "Error" nul_text)).
  right. exact nul_text_contains_nul.
Defined.

Lemma IsOlderThan_true_sound_witness :
  fst (IsOlderThan older_host sample_info "90.0.818.66") = true
  /\ snd (IsOlderThan older_host sample_info "90.0.818.66") = None
  /\ reported older_host sample_info "90.0.818.66" = -1.
Proof.
  split; [reflexivity|].
  destruct (IsOlderThan_true_sound older_host sample_info "90.0.818.66" eq_refl)
    as (Herr & _ & _ & Hrep).
  split; [exact Herr | exact Hrep].
Defined.

Lemma IsOlderThan_untouched_result_witness :
  ~ contains_nul (Version sample_info) /\ ~ contains_nul "90.0.818.66"
  /\ IsOlderThan faulty_host sample_info "90.0.818.66" = (false, Some (Errno 0)).
Proof.
  destruct sample_versions_encode as [H1 H2].
  split; [exact H1|]. split; [exact H2|].
  exact (IsOlderThan_untouched_result faulty_host sample_info "90.0.818.66" 0
           H1 H2 eq_refl).
Defined.

Lemma IsOlderThan_encoding_failure_witness :
  contains_nul (Version nul_info)
  /\ IsOlderThan older_host nul_info "90.0.818.66" = (false, Some EINVAL).
Proof.
  split; [exact nul_text_contains_nul|].
  exact (IsOlderThan_encoding_failure nul_info "90.0.818.66"
           (or_introl nul_text_contains_nul) older_host).
Defined.

Lemma GetInstalledVersion_stored_strings_witness :
  OpenKey full_host (regkey (GOARCH full_host)) = inl full_key
  /\ stored full_key "location" "C:\Program Files (x86)\Microsoft\EdgeWebView"
  /\ stored full_key "SilentUninstall" "%ProgramFiles%\setup.exe --uninstall"
  /\ fst (run (GetInstalledVersion full_host)) =
       Some {| Location := "C:\Program Files (x86)\Microsoft\EdgeWebView";
               Name := "Microsoft Edge WebView2 Runtime";
               Version := "89.0.0.1";
               SilentUninstall := "%ProgramFiles%\setup.exe --uninstall" |}.
Proof.
  assert (Hl : stored full_key "location"
                 "C:\Program Files (x86)\Microsoft\EdgeWebView")
    by (left; reflexivity).
  assert (Hs : stored full_key "SilentUninstall"
                 "%ProgramFiles%\setup.exe --uninstall")
    by (right; reflexivity).
  split; [reflexivity|]. split; [exact Hl|]. split; [exact Hs|].
  apply (proj2 (GetInstalledVersion_stored_strings full_host full_key
                  "C:\Program Files (x86)\Microsoft\EdgeWebView"
                  "Microsoft Edge WebView2 Runtime" "89.0.0.1"
                  "%ProgramFiles%\setup.exe --uninstall"
                  eq_refl Hl (or_introl eq_refl) (or_introl eq_refl) Hs));
    apply IndexByteString_absent; reflexivity.
Defined.

Lemma GetInstalledVersion_ignores_other_values_witness :
  wider_key !! "lang" = Some (RegSZ "en") /\ sample_key !! "lang" = None
  /\ run (GetInstalledVersion older_host) = run (GetInstalledVersion wider_host).
Proof.
  split; [reflexivity|]. split; [reflexivity|].
  apply (GetInstalledVersion_ignores_other_values older_host wider_host
           sample_key wider_key); reflexivity.
Defined.

Lemma install_create_failure_witness :
  run (InstallUsingBootstrapper no_disk_host) =
    ((false, Some (ErrOther "access is denied")),
     [EvCreate (installer no_disk_host)]).
Proof.
  apply (install_create_failure no_disk_host (ErrOther "access is denied")).
  reflexivity.
Defined.

Lemma install_download_failure_witness :
  http_Get offline_host bootstrapperURL = Some (ErrOther "no such host")
  /\ fst (run (InstallUsingBootstrapper offline_host)) = (false, None).
Proof.
  split; [reflexivity|].
  destruct (install_download_failure offline_host (ErrOther "no such host")
              eq_refl (or_introl eq_refl)) as (_ & Hnil & _).
  apply Hnil. reflexivity.
Defined.

Lemma install_true_sound_witness :
  fst (fst (run (InstallUsingBootstrapper older_host))) = true
  /\ downloads older_host
  /\ In EvWait (snd (run (InstallUsingBootstrapper older_host))).
Proof.
  split; [reflexivity|].
  destruct (install_true_sound older_host eq_refl) as (Hd & _ & Hw & _).
  split; [exact Hd | exact Hw].
Defined.

Lemma Bootstrap_up_to_date_witness :
  fst (run (GetInstalledVersion current_host)) =
    Some {| Location := "C:\Program Files (x86)\Microsoft\EdgeWebView";
            Name := ""; Version := "89.0.0.1"; SilentUninstall := "" |}
  /\ BootstrapRuntime sample_text current_host =
       (None, [ActQuery; ActCompare "90.0.818.66"]).
Proof.
  split; [reflexivity|].
  apply (Bootstrap_up_to_date sample_text current_host
           {| Location := "C:\Program Files (x86)\Microsoft\EdgeWebView";
              Name := ""; Version := "89.0.0.1"; SilentUninstall := "" |});
    reflexivity.
Defined.

Lemma Bootstrap_compare_error_witness :
  BootstrapRuntime sample_text faulty_host =
    (Some (Errno 0),
     [ActQuery; ActCompare "90.0.818.66";
      ActError "The operation completed successfully." "Error"]).
Proof.
  apply (Bootstrap_compare_error sample_text faulty_host
           {| Location := "C:\Program Files (x86)\Microsoft\EdgeWebView";
              Name := ""; Version := "89.0.0.1"; SilentUninstall := "" |}
           false (Errno 0)); reflexivity.
Defined.

Lemma Bootstrap_prompt_witness :
  fst (run (GetInstalledVersion bare_host)) = None
  /\ (exists rest, snd (BootstrapRuntime sample_text bare_host) =
        ActQuery
        :: ActConfirm "The WebView2 runtime is required. Press Ok to install."
             "Missing Requirements"
        :: rest)
  /\ (exists rest, snd (BootstrapRuntime sample_text older_host) =
        ActQuery :: ActCompare "90.0.818.66"
        :: ActConfirm "The WebView2 runtime needs updating. Press Ok to install."
             "Missing Requirements"
        :: rest).
Proof.
  split; [reflexivity|]. split.
  - exact (proj1 (Bootstrap_prompt sample_text bare_host) eq_refl).
  - exact (proj2 (Bootstrap_prompt sample_text older_host)
             {| Location := "C:\Program Files (x86)\Microsoft\EdgeWebView";
                Name := ""; Version := "89.0.0.1"; SilentUninstall := "" |}
             eq_refl eq_refl).
Defined.

Lemma older_host_installs :
  In ActInstall (snd (BootstrapRuntime sample_text older_host)).
Proof. vm_compute. tauto. Qed.

Lemma Bootstrap_installs_only_confirmed_witness :
  In ActInstall (snd (BootstrapRuntime sample_text older_host))
  /\ exists message,
       In (ActConfirm message "Missing Requirements")
          (snd (BootstrapRuntime sample_text older_host))
       /\ Confirm older_host message "Missing Requirements" = (true, None).
Proof.
  split; [exact older_host_installs|].
  exact (Bootstrap_installs_only_confirmed sample_text older_host
           older_host_installs).
Defined.

Lemma Bootstrap_returns_install_error_witness :
  In ActInstall (snd (BootstrapRuntime sample_text older_host))
  /\ fst (BootstrapRuntime sample_text older_host) =
     snd (fst (run (InstallUsingBootstrapper older_host)))
  /\ snd (fst (run (InstallUsingBootstrapper older_host))) = Some ErrClosed.
Proof.
  split; [exact older_host_installs|].
  split; [|reflexivity].
  exact (Bootstrap_returns_install_error sample_text older_host
           older_host_installs).
Defined.

(** ** The comparator's 32-bit store *)

(** In a 32-bit [int] the store replaces the whole variable. *)
Lemma store_int32_on_32 (old answer : Z) :
  store_int32 32 old answer = to_int 32 (answer mod 2 ^ 32).
Proof.
  unfold store_int32.
  assert (Hold : 0 <= old mod 2 ^ 32 < 2 ^ 32) by (apply Z.mod_pos_bound; lia).
  rewrite Z.shiftr_div_pow2 by lia.
  rewrite (Z.div_small _ _ Hold), Z.shiftl_0_l, Z.lor_0_l. reflexivity.
Qed.

(** In a 64-bit [int] that held 9, the store leaves the answer as an
    unsigned 32-bit number: the upper half stays zero. *)
Lemma store_int32_fresh_64 (answer : Z) :
  store_int32 64 9 answer = answer mod 2 ^ 32.
Proof.
  unfold store_int32.
  change (Z.shiftl (Z.shiftr (9 mod 2 ^ 64) 32) 32) with 0.
  rewrite Z.lor_0_l.
  assert (Ha : 0 <= answer mod 2 ^ 32 < 2 ^ 32) by (apply Z.mod_pos_bound; lia).
  apply to_int_small; lia.
Qed.

(** With a 64-bit [int], [IsOlderThan] never returns true, and the answer
    -1 of the comparator comes back as an error. *)
Lemma IsOlderThan_on_64_bit (h : Host) (i : Info) (requiredVersion : string)
    (answer lastErr : Z) :
  intSize h = 64 ->
  ~ contains_nul (Version i) -> ~ contains_nul requiredVersion ->
  comparator_answers h (Version i) requiredVersion answer lastErr ->
  fst (IsOlderThan h i requiredVersion) = false
  /\ (answer = -1 ->
      IsOlderThan h i requiredVersion = (false, Some (Errno lastErr))).
Proof.
  intros Hbits H1 H2 Hans.
  rewrite (IsOlderThan_encoded h i requiredVersion H1 H2).
  unfold reported. rewrite (Hans 9), Hbits, store_int32_fresh_64. simpl.
  split.
  - assert (Ha : 0 <= answer mod 2 ^ 32) by (apply Z.mod_pos_bound; lia).
    destruct ((answer mod 2 ^ 32 <? -1) || (answer mod 2 ^ 32 >? 1));
      [reflexivity|]. simpl. apply Z.eqb_neq. lia.
  - intros ->. reflexivity.
Qed.

(** With a 32-bit [int], the answers -1, 0 and 1 of the comparator come
    back as true, false and false, with a nil error. *)
Lemma IsOlderThan_on_32_bit (h : Host) (i : Info) (requiredVersion : string)
    (answer lastErr : Z) :
  intSize h = 32 ->
  ~ contains_nul (Version i) -> ~ contains_nul requiredVersion ->
  comparator_answers h (Version i) requiredVersion answer lastErr ->
  answer = -1 \/ answer = 0 \/ answer = 1 ->
  IsOlderThan h i requiredVersion = (answer =? -1, None).
Proof.
  intros Hbits H1 H2 Hans Hrange.
  rewrite (IsOlderThan_encoded h i requiredVersion H1 H2).
  unfold reported. rewrite (Hans 9), Hbits, store_int32_on_32. simpl.
  destruct Hrange as [-> | [-> | ->]]; reflexivity.
Qed.

(** C3, at a 64-bit host whose comparator answers -1 for two versions
    that encode: [IsOlderThan] does not return true; it returns false with
    the last error of the call.  The same answer on a 32-bit host gives
    (true, nil). *)
Theorem IsOlderThan_older_answer_lost :
  comparator_answers (dll_host "amd64" 64 (-1))
    (Version sample_info) "90.0.818.66" (-1) 0
  /\ IsOlderThan (dll_host "amd64" 64 (-1)) sample_info "90.0.818.66"
     = (false, Some (Errno 0))
  /\ comparator_answers (dll_host "386" 32 (-1))
       (Version sample_info) "90.0.818.66" (-1) 0
  /\ IsOlderThan (dll_host "386" 32 (-1)) sample_info "90.0.818.66"
     = (true, None).
Proof.
  split; [intros old; reflexivity|]. split; [reflexivity|].
  split; [intros old; reflexivity | reflexivity].
Qed.

(** C4, at the same 64-bit host: both versions encode and the comparator
    answers -1, a value inside -1..1, and yet the error of [IsOlderThan]
    is not nil. *)
Theorem IsOlderThan_error_with_answer_in_range :
  ~ contains_nul (Version sample_info) /\ ~ contains_nul "90.0.818.66"
  /\ comparator_answers (dll_host "amd64" 64 (-1))
       (Version sample_info) "90.0.818.66" (-1) 0
  /\ snd (IsOlderThan (dll_host "amd64" 64 (-1)) sample_info "90.0.818.66")
     <> None.
Proof.
  destruct sample_versions_encode as [H1 H2].
  split; [exact H1|]. split; [exact H2|].
  split; [intros old; reflexivity | discriminate].
Qed.


